(** * twisted.python.logger._filter: filtering log observer

    A shallow embedding of [src/twisted/python/logger/_filter.py] and the
    properties of its predicate chain, its namespace-to-level table and its
    forwarding observer.

    Typing boundary.  Python is dynamically typed; the embedding keeps a value
    dynamic exactly where the source checks it at run time (the result of a
    predicate, tested against the three [PredicateResult] constants, and the
    [level] argument of [setLogLevelForNamespace], tested against
    [LogLevel.iterconstants()]).  Everything else carries the type its
    docstring gives: a namespace is a [str] or [None], an event is a [dict]
    whose [log_level] is a [LogLevel] and whose [log_namespace] is a [str].

    [LogLevel], [LogLevel.iterconstants], [LogLevel._priorityForLevel] and
    [InvalidLogLevelError] live in [_levels.py], and [repr] of a constant in
    [twisted.python.constants]; none of them is part of this file, so the
    development is parametric in them. *)

From Stdlib Require Import ZArith String Ascii.
From stdpp Require Import base decidable option list strings functions gmap.

Local Open Scope string_scope.
Local Open Scope list_scope.

(** ** Values *)

(** [class PredicateResult(Names)]: the three named constants. *)
Inductive PredicateResult : Type :=
| yes     (* Log this *)
| no      (* Don't log this *)
| maybe.  (* No opinion *)

#[global] Instance PredicateResult_eq_dec : EqDecision PredicateResult.
Proof. solve_decision. Defined.

(** Identity of a Python object (what [is] and [id()] compare). *)
Definition ObjId := nat.

(** Dynamically typed values: what a predicate may hand back and what a caller
    may pass as a level. *)
Inductive PyObj {LogLevel : Type} : Type :=
| PyNone
| PyBool (b : bool)
| PyInt (z : Z)
| PyStr (s : string)
| PyLevel (l : LogLevel)
| PyResult (r : PredicateResult).
Arguments PyObj : clear implicits.

#[global] Instance PyObj_eq_dec `{EqDecision LogLevel} : EqDecision (PyObj LogLevel).
Proof. solve_decision. Defined.

(** Truth value of an object in a condition ([if x:]). Named constants define
    neither [__bool__] nor [__len__], so they are true. *)
Definition truthy {LogLevel} (v : PyObj LogLevel) : bool :=
  match v with
  | PyNone => false
  | PyBool b => b
  | PyInt z => negb (z =? 0)%Z
  | PyStr s => negb (String.eqb s "")
  | PyLevel _ => true
  | PyResult _ => true
  end.

(** Truth value of a namespace argument: [None] and [""] are false. *)
Definition namespace_truthy (namespace : option string) : bool :=
  match namespace with
  | None => false
  | Some s => negb (String.eqb s "")
  end.

(** ** Exceptions and the state-and-error monad *)

Inductive exn {LogLevel : Type} : Type :=
| TypeError (msg : string)
| KeyError (key : option string)
| AttributeError (name : string)
| InvalidLogLevelError (level : PyObj LogLevel).
Arguments exn : clear implicits.

Inductive result {LogLevel : Type} (A : Type) : Type :=
| Ok (a : A)
| Raise (e : exn LogLevel).
Arguments result : clear implicits.
Arguments Ok {LogLevel A} a.
Arguments Raise {LogLevel A} e.

(** A computation over a mutable state [St]: it returns normally or raises,
    and in both cases leaves a state behind. *)
Definition M (LogLevel St A : Type) : Type := St -> result LogLevel A * St.

Definition ret {LogLevel St A} (a : A) : M LogLevel St A :=
  fun st => (Ok a, st).

Definition raise {LogLevel St A} (e : exn LogLevel) : M LogLevel St A :=
  fun st => (Raise e, st).

Definition bind {LogLevel St A B}
    (c : M LogLevel St A) (k : A -> M LogLevel St B) : M LogLevel St B :=
  fun st =>
    match c st with
    | (Ok a, st') => k a st'
    | (Raise e, st') => (Raise e, st')
    end.

Definition get {LogLevel St} : M LogLevel St St :=
  fun st => (Ok st, st).

Definition put {LogLevel St} (st' : St) : M LogLevel St unit :=
  fun _ => (Ok tt, st').

Declare Scope py_scope.
Delimit Scope py_scope with py.
Notation "x <- c ;; k" := (bind c (fun x => k))
  (at level 100, c at next level, right associativity) : py_scope.
Notation "c ;; k" := (bind c (fun _ => k))
  (at level 100, right associativity) : py_scope.

(** ** Strings: [str.split] with a one-character separator and [str.join] *)

(** [s.split(sep)]: the pieces of [s] between occurrences of [sep]; never
    empty, and [[""]] for the empty string. *)
Fixpoint split (sep : ascii) (s : string) : list string :=
  match s with
  | EmptyString => [EmptyString]
  | String c s' =>
      if Ascii.eqb c sep then EmptyString :: split sep s'
      else match split sep s' with
           | [] => [String c EmptyString]
           | piece :: pieces => String c piece :: pieces
           end
  end.

(** [sep.join(pieces)]. *)
Fixpoint join (sep : string) (pieces : list string) : string :=
  match pieces with
  | [] => EmptyString
  | [piece] => piece
  | piece :: rest => piece ++ sep ++ join sep rest
  end.

(** ** Events and the store they live in *)

(** An event is a [dict]; the code reads three of its keys.  [log_level] and
    [log_namespace] are read with [event.get(key, None)], so [None] stands for
    a missing key as well as for a key bound to [None].  [log_trace] is tested
    with [in]: [None] is a missing key, [Some trace] a list of
    (forwarder, observer) pairs. *)
Record Event {LogLevel : Type} : Type := {
  log_level : option LogLevel;
  log_namespace : option string;
  log_trace : option (list (ObjId * ObjId))
}.
Arguments Event : clear implicits.

(** Events are passed by reference. *)
Definition loc := nat.

#[global] Instance loc_eq_dec : EqDecision loc := Nat.eq_dec.

(** The store: the event dictionaries, and the state [R] of the collaborators
    (downstream observers, caller-supplied predicates). *)
Record World {LogLevel R : Type} : Type := {
  heap : loc -> Event LogLevel;
  ext : R
}.
Arguments World : clear implicits.

(** ** shouldLogEvent *)

Section Chain.
Context {LogLevel : Type} `{EqDecision LogLevel}.
Context {E St : Type}.

(** [repr(value)], as used by [{0!r}]. *)
Variable repr : PyObj LogLevel -> string.

(** A predicate is any callable taking the event; it may have effects and
    may hand back any object. *)
Definition Predicate : Type := E -> M LogLevel St (PyObj LogLevel).

Fixpoint shouldLogEvent (predicates : list Predicate) (event : E)
    : M LogLevel St bool :=
  match predicates with
  | [] => ret true
  | predicate :: predicates' =>
      (result <- predicate event ;;
       if bool_decide (result = PyResult yes) then ret true
       else if bool_decide (result = PyResult no) then ret false
       else if bool_decide (result = PyResult maybe) then
         shouldLogEvent predicates' event
       else raise (TypeError ("Invalid predicate result: " ++ repr result)))%py
  end.

(** The predicates of [predicates], called one after the other from [st],
    all hand back [maybe]: the state the last one leaves. *)
Fixpoint abstaining (predicates : list Predicate) (event : E) (st : St)
    : option St :=
  match predicates with
  | [] => Some st
  | predicate :: predicates' =>
      match predicate event st with
      | (Ok (PyResult maybe), st') => abstaining predicates' event st'
      | _ => None
      end
  end.

(** The boolean a decisive result stands for; [maybe] decides nothing. *)
Definition verdict (r : PredicateResult) : option bool :=
  match r with
  | yes => Some true
  | no => Some false
  | maybe => None
  end.
End Chain.

(** Call-count instrumentation: the predicate at position [i] of a chain,
    wrapped so that every call also logs [i]. *)
Section Instrumentation.
Context {LogLevel E St : Type}.

Definition counted (i : nat) (p : @Predicate LogLevel E St)
    : @Predicate LogLevel E (St * list nat) :=
  fun event '(st, calls) =>
    let '(r, st') := p event st in (r, (st', calls ++ [i])).

Fixpoint instrument_from (i : nat) (predicates : list (@Predicate LogLevel E St))
    : list (@Predicate LogLevel E (St * list nat)) :=
  match predicates with
  | [] => []
  | p :: predicates' => counted i p :: instrument_from (S i) predicates'
  end.

Definition instrument := instrument_from 0.
End Instrumentation.

(** ** class LogLevelFilterPredicate *)

Module LogLevelFilterPredicate.
Section Methods.
Context {LogLevel : Type} `{EqDecision LogLevel}.

(** [LogLevel.iterconstants()]: the constants of the enumeration. *)
Variable iterconstants : list LogLevel.
(** [LogLevel._priorityForLevel]. *)
Variable _priorityForLevel : LogLevel -> Z.

(** The attributes of an instance.  The dictionary's keys are [None] (the
    root) and namespace strings. *)
Record t : Type := {
  _logLevelsByNamespace : gmap (option string) LogLevel;
  defaultLogLevel : LogLevel
}.

(** [d[key]]: raises [KeyError] on a missing key. *)
Definition getitem (d : gmap (option string) LogLevel) (key : option string)
    : result LogLevel LogLevel :=
  match d !! key with
  | Some level => Ok level
  | None => Raise (KeyError key)
  end.

(** [key in d]. *)
Definition contains (d : gmap (option string) LogLevel) (key : option string)
    : bool :=
  bool_decide (is_Some (d !! key)).

(** The [while index > 0] loop of [logLevelForNamespace], with the [return]
    that follows it. *)
Fixpoint prefixLoop (d : gmap (option string) LogLevel)
    (segments : list string) (index : nat) : result LogLevel LogLevel :=
  match index with
  | O => getitem d None
  | S index' =>
      let namespace := join "." (take index segments) in
      if contains d (Some namespace) then getitem d (Some namespace)
      else prefixLoop d segments index'
  end.

(** The method only reads [self]. *)
Definition logLevelForNamespace (self : t) (namespace : option string)
    : result LogLevel LogLevel :=
  if negb (namespace_truthy namespace) then
    getitem (_logLevelsByNamespace self) None
  else if contains (_logLevelsByNamespace self) namespace then
    getitem (_logLevelsByNamespace self) namespace
  else
    let segments := split "." (default "" namespace) in
    let index := length segments - 1 in
    prefixLoop (_logLevelsByNamespace self) segments index.

(** [level not in LogLevel.iterconstants()] searches the constants for one
    equal to [level]; the constant found is the value stored. *)
Definition setLogLevelForNamespace (namespace : option string)
    (level : PyObj LogLevel) : M LogLevel t unit :=
  fun self =>
    match List.find (fun c => bool_decide (level = PyLevel c)) iterconstants with
    | None => (Raise (InvalidLogLevelError level), self)
    | Some l =>
        if namespace_truthy namespace then
          (Ok tt, {| _logLevelsByNamespace :=
                       <[namespace := l]> (_logLevelsByNamespace self);
                     defaultLogLevel := defaultLogLevel self |})
        else
          (Ok tt, {| _logLevelsByNamespace :=
                       <[None := l]> (_logLevelsByNamespace self);
                     defaultLogLevel := defaultLogLevel self |})
    end.

Definition clearLogLevels : M LogLevel t unit :=
  fun self =>
    (Ok tt, {| _logLevelsByNamespace := <[None := defaultLogLevel self]> ∅;
               defaultLogLevel := defaultLogLevel self |}).

(** [LogLevelFilterPredicate(defaultLogLevel)]: the instance [__init__]
    leaves behind. *)
Definition __init__ (defaultLogLevel : LogLevel) : t :=
  snd (clearLogLevels {| _logLevelsByNamespace := ∅;
                         defaultLogLevel := defaultLogLevel |}).

Definition __call__ (self : t) (event : Event LogLevel)
    : result LogLevel (PyObj LogLevel) :=
  let eventLevel := log_level event in
  let namespace := log_namespace event in
  match logLevelForNamespace self namespace with
  | Raise e => Raise e
  | Ok namespaceLevel =>
      match eventLevel, namespace with
      | None, _ => Ok (PyResult no)
      | Some _, None => Ok (PyResult no)
      | Some eventLevel, Some _ =>
          if (_priorityForLevel eventLevel <? _priorityForLevel namespaceLevel)%Z
          then Ok (PyResult no)
          else Ok (PyResult maybe)
      end
  end.

(** The configuration calls a client can make on an instance. *)
Inductive op : Type :=
| SetLevel (namespace : option string) (level : PyObj LogLevel)
| Clear.

(** One call; a caller that catches the exception of a failed
    [setLogLevelForNamespace] goes on with the instance as the call left
    it. *)
Definition step (self : t) (o : op) : t :=
  match o with
  | SetLevel namespace level => snd (setLogLevelForNamespace namespace level self)
  | Clear => snd (clearLogLevels self)
  end.

(** The instance after construction with [defaultLogLevel] and the calls
    [ops], in order. *)
Definition run (defaultLogLevel : LogLevel) (ops : list op) : t :=
  fold_left step ops (__init__ defaultLogLevel).

(** The dictionary key a [setLogLevelForNamespace] call writes. *)
Definition keyFor (namespace : option string) : option string :=
  if namespace_truthy namespace then namespace else None.

(** The keys [prefixLoop] looks up, in order, up to and including the one
    it returns from. *)
Fixpoint prefixLoopKeys (d : gmap (option string) LogLevel)
    (segments : list string) (index : nat) : list (option string) :=
  match index with
  | O => [None]
  | S index' =>
      let namespace := join "." (take index segments) in
      if contains d (Some namespace) then [Some namespace]
      else Some namespace :: prefixLoopKeys d segments index'
  end.

(** The keys [logLevelForNamespace] looks up on [self] for [namespace]. *)
Definition consultedKeys (self : t) (namespace : option string)
    : list (option string) :=
  if negb (namespace_truthy namespace) then [None]
  else if contains (_logLevelsByNamespace self) namespace then [namespace]
  else
    let segments := split "." (default "" namespace) in
    namespace :: prefixLoopKeys (_logLevelsByNamespace self) segments
                   (length segments - 1).
End Methods.
End LogLevelFilterPredicate.

(** The resolution rule in the words of the specification, as a relation
    between a namespace and the level it resolves to, over a table [d] whose
    root level is [rootLevel]: the root level for a null or empty namespace;
    else the exact entry; else, with the namespace split on ["."], the entry
    of the longest configured prefix of [len(segments)-1] down to [1]
    segments; else the root level. *)
Definition resolveSpec {LogLevel : Type} (d : gmap (option string) LogLevel)
    (rootLevel : LogLevel) (namespace : option string) (level : LogLevel)
    : Prop :=
  match namespace with
  | None | Some "" => level = rootLevel
  | Some ns =>
      match d !! Some ns with
      | Some exact => level = exact
      | None =>
          let segments := split "." ns in
          let longest := length segments - 1 in
          let prefix n := Some (join "." (take n segments)) in
          (exists n, 1 <= n <= longest
                     /\ d !! prefix n = Some level
                     /\ forall n', n < n' <= longest -> d !! prefix n' = None)
          \/ (level = rootLevel
              /\ forall n, 1 <= n <= longest -> d !! prefix n = None)
      end
  end.

(** A [LogLevelFilterPredicate] instance, in the configuration [self], as a
    member of a predicate chain: it reads the event from the store and changes
    nothing. *)
Definition levelPredicate {LogLevel R : Type} `{EqDecision LogLevel}
    (_priorityForLevel : LogLevel -> Z) (self : LogLevelFilterPredicate.t)
    : @Predicate LogLevel loc (World LogLevel R) :=
  fun event w =>
    (LogLevelFilterPredicate.__call__ _priorityForLevel self (heap w event), w).

(** ** class FilteringLogObserver *)

Module FilteringLogObserver.
Section Methods.
Context {LogLevel : Type} `{EqDecision LogLevel}.
Context {R : Type}.
Variable repr : PyObj LogLevel -> string.

#[local] Abbreviation W := (World LogLevel R).

(** A callable object: its identity and what calling it on an event does. *)
Record PyCallable : Type := {
  obj_id : ObjId;
  call : loc -> M LogLevel W (PyObj LogLevel)
}.

(** An instance: its identity and its attribute dictionary.  The class
    itself defines only [__init__] and [__call__]. *)
Record t : Type := {
  self_id : ObjId;
  __dict__ : gmap string PyCallable
}.

(** [self.name]. *)
Definition getattr (self : t) (name : string) : M LogLevel W PyCallable :=
  match __dict__ self !! name with
  | Some v => ret v
  | None => raise (AttributeError name)
  end.

(** [partial(shouldLogEvent, predicates)]; [id] is the identity of the new
    object. *)
Definition partial_shouldLogEvent (id : ObjId)
    (predicates : list (@Predicate LogLevel loc W)) : PyCallable :=
  {| obj_id := id;
     call := fun event =>
       (b <- shouldLogEvent repr predicates event ;; ret (PyBool b))%py |}.

(** [__init__] on the fresh instance [self]; [id] is the identity of the
    [partial] object it creates.  [list(predicates)] copies the sequence,
    which a Rocq list already is. *)
Definition __init__ (self : t) (id : ObjId) (observer : PyCallable)
    (predicates : list (@Predicate LogLevel loc W)) : t :=
  {| self_id := self_id self;
     __dict__ := <["_shouldLogEvent" := partial_shouldLogEvent id predicates]>
                   (<["_observer" := observer]> (__dict__ self)) |}.

(** [FilteringLogObserver(observer, predicates)], the new instance having
    identity [id] and its [partial] object identity [id']. *)
Definition new (id id' : ObjId) (observer : PyCallable)
    (predicates : list (@Predicate LogLevel loc W)) : t :=
  __init__ {| self_id := id; __dict__ := ∅ |} id' observer predicates.

(** ["log_trace" in event]. *)
Definition has_log_trace (event : loc) : M LogLevel W bool :=
  fun w => (Ok (bool_decide (is_Some (log_trace (heap w event)))), w).

(** [event["log_trace"].append(entry)]: the list is changed in place. *)
Definition append_log_trace (event : loc) (entry : ObjId * ObjId)
    : M LogLevel W unit :=
  fun w =>
    match log_trace (heap w event) with
    | None => (Raise (KeyError (Some "log_trace")), w)
    | Some trace =>
        (Ok tt,
         {| heap := <[event := {| log_level := log_level (heap w event);
                                  log_namespace := log_namespace (heap w event);
                                  log_trace := Some (trace ++ [entry]) |}]> (heap w);
            ext := ext w |})
    end.

(** The tuple [(self, self.observer)] is built, [self.observer] included,
    before [append] is called. *)
Definition __call__ (self : t) (event : loc) : M LogLevel W (PyObj LogLevel) :=
  (_shouldLogEvent <- getattr self "_shouldLogEvent" ;;
   pass <- call _shouldLogEvent event ;;
   if truthy pass then
     (traced <- has_log_trace event ;;
      (if (traced : bool) then
         (observer <- getattr self "observer" ;;
          append_log_trace event (self_id self, obj_id observer))
       else ret tt) ;;
      _observer <- getattr self "_observer" ;;
      call _observer event ;;
      ret PyNone)
   else ret PyNone)%py.
End Methods.
End FilteringLogObserver.

(** ** A concrete setting to run the definitions in *)

Module Sample.
(** Modelled from the spec: the level enumeration of [_levels.py], which is
    not part of this file; the spec's glossary gives "an ordered
    classification of event importance (e.g., debug < info < warn <
    error)" and a priority that grows with severity. *)
Inductive LogLevel : Type := debug | info | warn | error.

#[global] Instance LogLevel_eq_dec : EqDecision LogLevel.
Proof. solve_decision. Defined.

Definition iterconstants : list LogLevel := [debug; info; warn; error].

Definition _priorityForLevel (level : LogLevel) : Z :=
  match level with
  | debug => 0
  | info => 1
  | warn => 2
  | error => 3
  end.

(** Some rendering of values, for error messages. *)
Definition repr (v : PyObj LogLevel) : string :=
  match v with
  | PyNone => "None"
  | PyBool true => "True"
  | PyBool false => "False"
  | PyInt _ => "<int>"
  | PyStr s => "'" ++ s ++ "'"
  | PyLevel debug => "<LogLevel=debug>"
  | PyLevel info => "<LogLevel=info>"
  | PyLevel warn => "<LogLevel=warn>"
  | PyLevel error => "<LogLevel=error>"
  | PyResult yes => "<PredicateResult=yes>"
  | PyResult no => "<PredicateResult=no>"
  | PyResult maybe => "<PredicateResult=maybe>"
  end.

(** A predicate that answers [v] whatever the event, and has no effect. *)
Definition always {E St : Type} (v : PyObj LogLevel)
    : @Predicate LogLevel E St :=
  fun _ st => (Ok v, st).

(** The instance of the spec's scenario: default [info], then
    [setLogLevelForNamespace("app", LogLevel.debug)]. *)
Definition configured : @LogLevelFilterPredicate.t LogLevel :=
  LogLevelFilterPredicate.run iterconstants info
    [LogLevelFilterPredicate.SetLevel (Some "app") (PyLevel debug)].

(** The same with the threshold of ["app"] at [error]. *)
Definition strict : @LogLevelFilterPredicate.t LogLevel :=
  LogLevelFilterPredicate.run iterconstants info
    [LogLevelFilterPredicate.SetLevel (Some "app") (PyLevel error)].

(** [{"log_level": warn, "log_namespace": "app.db", "log_trace": []}]. *)
Definition warnEvent : Event LogLevel :=
  {| log_level := Some warn;
     log_namespace := Some "app.db";
     log_trace := Some [] |}.

(** A store whose events all are [warnEvent]; the collaborators' state is
    the number of events the downstream observer has received. *)
Definition world0 : World LogLevel nat :=
  {| heap := fun _ => warnEvent; ext := 0 |}.

(** A downstream observer that counts the events it receives. *)
Definition countingObserver : @FilteringLogObserver.PyCallable LogLevel nat :=
  {| FilteringLogObserver.obj_id := 7;
     FilteringLogObserver.call := fun _ w =>
       (Ok PyNone, {| heap := heap w; ext := S (ext w) |}) |}.

(** The chain of the spec's last scenario: a level predicate that lets
    [warnEvent] pass, then a predicate answering [yes]. *)
Definition acceptingChain
    : list (@Predicate LogLevel loc (World LogLevel nat)) :=
  [levelPredicate _priorityForLevel configured; always (PyResult yes)].
End Sample.

(** More of the same setting: an event without a trace list. *)
Module SampleUntraced.
Import Sample.

(** [{"log_level": warn, "log_namespace": "app.db"}]. *)
Definition plainEvent : Event LogLevel :=
  {| log_level := Some warn;
     log_namespace := Some "app.db";
     log_trace := None |}.

(** A store whose events all are [plainEvent]; no event received so far. *)
Definition world1 : World LogLevel nat :=
  {| heap := fun _ => plainEvent; ext := 0 |}.

(** [world1] after the downstream observer has received one event. *)
Definition world1_received : World LogLevel nat :=
  {| heap := fun _ => plainEvent; ext := 1 |}.

(** A predicate that raises [KeyError("user")], as one that reads a field the
    event does not have. *)
Definition failing {E St : Type} : @Predicate LogLevel E St :=
  fun _ st => (Raise (KeyError (Some "user")), st).
End SampleUntraced.

(** * Properties *)

(** ** Strings *)

Lemma split_nonempty sep s : split sep s <> [].
Proof.
  destruct s as [|c s]; simpl; [done|].
  destruct (Ascii.eqb c sep); [done|]. by destruct (split sep s).
Qed.

Lemma join_cons_String sep c piece pieces :
  join sep (String c piece :: pieces) = String c (join sep (piece :: pieces)).
Proof. by destruct pieces. Qed.

(** Joining the pieces of a split gives the string back. *)
Lemma join_split sep s : join (String sep "") (split sep s) = s.
Proof.
  induction s as [|c s IH]; simpl; [done|].
  pose proof (split_nonempty sep s) as Hne.
  destruct (Ascii.eqb_spec c sep) as [->|_].
  - destruct (split sep s) as [|piece pieces] eqn:Hs; [done|].
    change (join (String sep "") ("" :: piece :: pieces))
      with (String sep (join (String sep "") (piece :: pieces))).
    by rewrite IH.
  - destruct (split sep s) as [|piece pieces] eqn:Hs; [done|].
    by rewrite join_cons_String, IH.
Qed.

Example split_namespace : split "." "app.db.pool" = ["app"; "db"; "pool"].
Proof. reflexivity. Qed.

Example split_leading_dot : split "." ".a" = [""; "a"].
Proof. reflexivity. Qed.

Example join_prefix :
  join "." (take 2 (split "." "app.db.pool")) = "app.db".
Proof. reflexivity. Qed.

(** ** The predicate chain *)

Section ChainFacts.
Context {LogLevel : Type} `{EqDecision LogLevel}.
Context {E : Type}.
Variable repr : PyObj LogLevel -> string.

Implicit Types event : E.

(** Abstaining predicates at the head of a chain are called and passed. *)
Lemma shouldLogEvent_skip {St} (before rest : list (@Predicate LogLevel E St))
    event st st1 :
  abstaining before event st = Some st1 ->
  shouldLogEvent repr (before ++ rest) event st
  = shouldLogEvent repr rest event st1.
Proof.
  revert st. induction before as [|q before IH]; intros st Hab; simpl in *.
  - by inversion Hab.
  - unfold bind. destruct (q event st) as [[v|e] st']; [|done].
    destruct v as [| | | | |[]]; try done. simpl. by apply IH.
Qed.

Lemma shouldLogEvent_decisive {St} (p : @Predicate LogLevel E St) rest
    event st st' r b :
  p event st = (Ok (PyResult r), st') ->
  verdict r = Some b ->
  shouldLogEvent repr (p :: rest) event st = (Ok b, st').
Proof.
  intros Hp Hr. simpl. unfold bind. rewrite Hp.
  destruct r; simpl in Hr; inversion Hr; reflexivity.
Qed.

Lemma shouldLogEvent_invalid {St} (p : @Predicate LogLevel E St) rest
    event st st' v :
  p event st = (Ok v, st') ->
  (forall r, v <> PyResult r) ->
  shouldLogEvent repr (p :: rest) event st
  = (Raise (TypeError ("Invalid predicate result: " ++ repr v)), st').
Proof.
  intros Hp Hv. simpl. unfold bind. rewrite Hp.
  rewrite !bool_decide_eq_false_2 by apply Hv. reflexivity.
Qed.

Lemma instrument_from_app {St} i (ps qs : list (@Predicate LogLevel E St)) :
  instrument_from i (ps ++ qs)
  = instrument_from i ps ++ instrument_from (i + length ps) qs.
Proof.
  revert i. induction ps as [|q ps IH]; intros i; simpl.
  - by rewrite Nat.add_0_r.
  - rewrite IH. do 3 f_equal. lia.
Qed.

(** The instrumented chain abstains where the chain does, and logs one call
    per predicate, in order. *)
Lemma abstaining_instrument {St} i (before : list (@Predicate LogLevel E St))
    event st st1 calls :
  abstaining before event st = Some st1 ->
  abstaining (instrument_from i before) event (st, calls)
  = Some (st1, calls ++ seq i (length before)).
Proof.
  revert i st calls.
  induction before as [|q before IH]; intros i st calls Hab; simpl in *.
  - inversion Hab. by rewrite app_nil_r.
  - destruct (q event st) as [[v|e] st'] eqn:Hq; [|done].
    destruct v as [| | | | |[]]; try done.
    rewrite (IH (S i) st' (calls ++ [i]) Hab). by rewrite <- app_assoc.
Qed.

(** C1: in a chain [before ++ p :: after] whose predicates [before] all
    answer [maybe] and whose predicate [p] then answers [yes] or [no],
    [shouldLogEvent] returns [True] for [yes] and [False] for [no] and
    leaves the state as [p] left it; with every predicate instrumented to
    log its position when called, the log is exactly [0 .. length before]:
    each predicate up to [p] is called once, in order, and none of [after]
    is called. *)
Theorem shouldLogEvent_first_decisive {St}
    (before after : list (@Predicate LogLevel E St)) p event st st1 st2 r b :
  abstaining before event st = Some st1 ->
  p event st1 = (Ok (PyResult r), st2) ->
  verdict r = Some b ->
  shouldLogEvent repr (before ++ p :: after) event st = (Ok b, st2)
  /\ shouldLogEvent repr (instrument (before ++ p :: after)) event (st, [])
     = (Ok b, (st2, seq 0 (S (length before)))).
Proof.
  intros Hab Hp Hr. split.
  - rewrite (shouldLogEvent_skip _ _ _ _ _ Hab).
    by eapply shouldLogEvent_decisive.
  - unfold instrument. rewrite instrument_from_app. simpl instrument_from.
    rewrite (shouldLogEvent_skip _ _ _ _ _
               (abstaining_instrument 0 _ _ _ _ [] Hab)).
    rewrite seq_S. simpl "++".
    eapply shouldLogEvent_decisive; [|exact Hr].
    unfold counted. by rewrite Hp.
Qed.

(** C2: a chain whose predicates, called in order, all answer [maybe] makes
    [shouldLogEvent] return [True]; the empty chain is the case
    [predicates = []], where the hypothesis holds by computation. *)
Theorem shouldLogEvent_default_permit {St}
    (predicates : list (@Predicate LogLevel E St)) event st st' :
  abstaining predicates event st = Some st' ->
  shouldLogEvent repr predicates event st = (Ok true, st').
Proof.
  intros Hab.
  rewrite <- (app_nil_r predicates).
  by rewrite (shouldLogEvent_skip _ _ _ _ _ Hab).
Qed.
End ChainFacts.

(** ** The forwarding observer *)

Section ObserverFacts.
Context {LogLevel : Type} `{EqDecision LogLevel}.
Context {R : Type}.
Variable repr : PyObj LogLevel -> string.

#[local] Abbreviation W := (World LogLevel R).
Implicit Types (w : W) (event : loc).
Implicit Types predicates : list (@Predicate LogLevel loc W).
Implicit Types observer : @FilteringLogObserver.PyCallable LogLevel R.

(** What [__init__] stores, and what it does not. *)
Lemma new_attributes id id' observer predicates :
  let self := FilteringLogObserver.new repr id id' observer predicates in
  FilteringLogObserver.__dict__ self !! "_shouldLogEvent"
    = Some (FilteringLogObserver.partial_shouldLogEvent repr id' predicates)
  /\ FilteringLogObserver.__dict__ self !! "_observer" = Some observer
  /\ FilteringLogObserver.__dict__ self !! "observer" = None.
Proof.
  cbv zeta. unfold FilteringLogObserver.new, FilteringLogObserver.__init__.
  cbn [FilteringLogObserver.__dict__]. split; [|split].
  - by rewrite lookup_insert_eq.
  - rewrite lookup_insert_ne by done. by rewrite lookup_insert_eq.
  - by rewrite !lookup_insert_ne, lookup_empty by done.
Qed.

(** A call of a new instance, by the outcome of its chain. *)
Lemma call_new id id' observer predicates event w :
  FilteringLogObserver.__call__
    (FilteringLogObserver.new repr id id' observer predicates) event w
  = match shouldLogEvent repr predicates event w with
    | (Raise e, w') => (Raise e, w')
    | (Ok false, w') => (Ok PyNone, w')
    | (Ok true, w') =>
        if bool_decide (is_Some (log_trace (heap w' event)))
        then (Raise (AttributeError "observer"), w')
        else match FilteringLogObserver.call observer event w' with
             | (Ok _, w'') => (Ok PyNone, w'')
             | (Raise e, w'') => (Raise e, w'')
             end
    end.
Proof.
  destruct (new_attributes id id' observer predicates) as (Hs & Ho & Hn).
  unfold FilteringLogObserver.__call__, FilteringLogObserver.getattr.
  rewrite Hs, Ho, Hn. clear Hs Ho Hn.
  unfold bind, ret, raise, FilteringLogObserver.has_log_trace.
  cbn [FilteringLogObserver.call FilteringLogObserver.partial_shouldLogEvent].
  unfold bind, ret.
  destruct (shouldLogEvent repr predicates event w) as [[[|]|e] w'];
    cbn [truthy]; try reflexivity.
  destruct (bool_decide _); [reflexivity|].
  by destruct (FilteringLogObserver.call observer event w') as [[?|?] ?].
Qed.

(** C6: when the predicates [before] all answer [maybe] and the next one
    hands back a value [v] that is none of [yes], [no], [maybe],
    [shouldLogEvent] raises a [TypeError] whose message ends with
    [repr v], and a [FilteringLogObserver] built on the chain raises the
    same error from its call instead of returning. *)
Theorem invalid_predicate_result_raises before (p : @Predicate LogLevel loc W)
    after event w w1 w2 v id id' observer :
  abstaining before event w = Some w1 ->
  p event w1 = (Ok v, w2) ->
  (forall r, v <> PyResult r) ->
  shouldLogEvent repr (before ++ p :: after) event w
  = (Raise (TypeError ("Invalid predicate result: " ++ repr v)), w2)
  /\ FilteringLogObserver.__call__
       (FilteringLogObserver.new repr id id' observer (before ++ p :: after))
       event w
     = (Raise (TypeError ("Invalid predicate result: " ++ repr v)), w2).
Proof.
  intros Hab Hp Hv.
  assert (shouldLogEvent repr (before ++ p :: after) event w
          = (Raise (TypeError ("Invalid predicate result: " ++ repr v)), w2))
    as Hraise.
  { rewrite (shouldLogEvent_skip _ _ _ _ _ _ Hab).
    by apply shouldLogEvent_invalid. }
  split; [exact Hraise|]. by rewrite call_new, Hraise.
Qed.

(** C5 (as the code behaves): on an event that the chain accepts and that
    carries [log_trace], the call raises [AttributeError] for the attribute
    [observer], which no instance has, and the state is the one the chain
    left: nothing is appended and the downstream observer is not called. *)
Theorem traced_event_raises_AttributeError id id' observer predicates
    event w w' :
  shouldLogEvent repr predicates event w = (Ok true, w') ->
  is_Some (log_trace (heap w' event)) ->
  FilteringLogObserver.__call__
    (FilteringLogObserver.new repr id id' observer predicates) event w
  = (Raise (AttributeError "observer"), w').
Proof.
  intros Hpass Htrace. rewrite call_new, Hpass.
  by rewrite bool_decide_eq_true_2.
Qed.
End ObserverFacts.

(** ** The namespace-to-level table *)

Section LevelFacts.
Context {LogLevel : Type} `{EqDecision LogLevel}.
Variable iterconstants : list LogLevel.
Variable _priorityForLevel : LogLevel -> Z.

Import LogLevelFilterPredicate.

Implicit Types (d : gmap (option string) LogLevel) (self : @t LogLevel).
Implicit Types (namespace key : option string) (level : PyObj LogLevel).

Lemma getitem_Some d key l : d !! key = Some l -> getitem d key = Ok l.
Proof. unfold getitem. by intros ->. Qed.

Lemma contains_true d key : contains d key = true <-> is_Some (d !! key).
Proof. unfold contains. apply bool_decide_eq_true. Qed.

Lemma contains_false d key : contains d key = false <-> d !! key = None.
Proof.
  unfold contains. rewrite bool_decide_eq_false. symmetry.
  apply eq_None_not_Some.
Qed.

(** The loop returns the entry of the longest configured prefix of at most
    [index] segments, and the root entry when there is none. *)
Lemma prefixLoop_spec d segments index rootLevel :
  d !! None = Some rootLevel ->
  let prefix n := Some (join "." (take n segments)) in
  (exists n l, 1 <= n <= index
               /\ d !! prefix n = Some l
               /\ (forall n', n < n' <= index -> d !! prefix n' = None)
               /\ prefixLoop d segments index = Ok l)
  \/ ((forall n, 1 <= n <= index -> d !! prefix n = None)
      /\ prefixLoop d segments index = Ok rootLevel).
Proof.
  intros Hroot prefix. induction index as [|index IH].
  - right. split; [intros; lia|]. simpl. by apply getitem_Some.
  - simpl prefixLoop. fold (prefix (S index)).
    destruct (contains d (prefix (S index))) eqn:Hc.
    + apply contains_true in Hc as [l Hl]. left. exists (S index), l.
      repeat split; [lia|lia|done|intros; lia|by apply getitem_Some].
    + apply contains_false in Hc.
      destruct IH as [(n & l & Hn & Hl & Hnone & Hloop)|[Hnone Hloop]].
      * left. exists n, l. repeat split; [lia|lia|done| |done].
        intros n' Hn'. destruct (decide (n' = S index)) as [->|]; [done|].
        apply Hnone. lia.
      * right. split; [|done].
        intros n Hn. destruct (decide (n = S index)) as [->|]; [done|].
        apply Hnone. lia.
Qed.

Lemma namespace_truthy_Some ns :
  namespace_truthy (Some ns) = true <-> ns <> "".
Proof.
  simpl. destruct (String.eqb_spec ns ""); simpl; split; congruence.
Qed.

(** With a root entry the lookup cannot fail. *)
Lemma prefixLoop_total d segments index rootLevel :
  d !! None = Some rootLevel ->
  exists l, prefixLoop d segments index = Ok l.
Proof.
  intros Hroot. induction index as [|index IH]; simpl.
  - exists rootLevel. by apply getitem_Some.
  - destruct (contains d _) eqn:Hc; [|done].
    apply contains_true in Hc as [l Hl]. exists l. by apply getitem_Some.
Qed.

Lemma logLevelForNamespace_total self namespace rootLevel :
  _logLevelsByNamespace self !! None = Some rootLevel ->
  exists l, logLevelForNamespace self namespace = Ok l.
Proof.
  intros Hroot. unfold logLevelForNamespace.
  destruct (negb (namespace_truthy namespace)).
  { exists rootLevel. by apply getitem_Some. }
  destruct (contains _ namespace) eqn:Hc.
  - apply contains_true in Hc as [l Hl]. exists l. by apply getitem_Some.
  - by eapply prefixLoop_total.
Qed.

(** A table with nothing but a root entry sends every namespace to it. *)
Lemma prefixLoop_root_only d segments index rootLevel :
  d !! None = Some rootLevel ->
  (forall ns, d !! Some ns = None) ->
  prefixLoop d segments index = Ok rootLevel.
Proof.
  intros Hroot Hnone. induction index as [|index IH]; simpl.
  - by apply getitem_Some.
  - by rewrite (proj2 (contains_false d _) (Hnone _)).
Qed.

Lemma logLevelForNamespace_root_only self namespace rootLevel :
  _logLevelsByNamespace self !! None = Some rootLevel ->
  (forall ns, _logLevelsByNamespace self !! Some ns = None) ->
  logLevelForNamespace self namespace = Ok rootLevel.
Proof.
  intros Hroot Hnone. unfold logLevelForNamespace.
  destruct namespace as [ns|]; [|by apply getitem_Some].
  destruct (negb (namespace_truthy (Some ns))); [by apply getitem_Some|].
  rewrite (proj2 (contains_false _ _) (Hnone ns)).
  by apply prefixLoop_root_only.
Qed.

(** C3: on an instance whose table has a root entry, [logLevelForNamespace]
    returns a level for every namespace, and that level is the one the
    specification's rule [resolveSpec] names: the root level for [None] or
    [""], else the exact entry, else the entry of the longest configured
    dot-prefix of [len(segments)-1] down to [1] segments, else the root
    level. *)
Theorem logLevelForNamespace_resolves self namespace rootLevel :
  _logLevelsByNamespace self !! None = Some rootLevel ->
  exists l, logLevelForNamespace self namespace = Ok l
            /\ resolveSpec (_logLevelsByNamespace self) rootLevel namespace l.
Proof.
  intros Hroot. unfold logLevelForNamespace.
  destruct namespace as [ns|]; [|exists rootLevel; split; [by apply getitem_Some|done]].
  destruct (decide (ns = "")) as [->|Hne].
  { exists rootLevel. split; [by apply getitem_Some|done]. }
  rewrite (proj2 (namespace_truthy_Some ns) Hne). cbn [negb default].
  assert (forall l, resolveSpec (_logLevelsByNamespace self) rootLevel (Some ns) l
                    <-> match _logLevelsByNamespace self !! Some ns with
                        | Some exact => l = exact
                        | None =>
                            let segments := split "." ns in
                            let longest := length segments - 1 in
                            let prefix n := Some (join "." (take n segments)) in
                            (exists n, 1 <= n <= longest
                               /\ _logLevelsByNamespace self !! prefix n = Some l
                               /\ forall n', n < n' <= longest ->
                                    _logLevelsByNamespace self !! prefix n' = None)
                            \/ (l = rootLevel
                                /\ forall n, 1 <= n <= longest ->
                                     _logLevelsByNamespace self !! prefix n = None)
                        end) as Hspec.
  { intros l. unfold resolveSpec. destruct ns; [done|reflexivity]. }
  destruct (contains (_logLevelsByNamespace self) (Some ns)) eqn:Hc.
  - apply contains_true in Hc as [l Hl]. exists l.
    split; [by apply getitem_Some|]. apply Hspec. by rewrite Hl.
  - apply contains_false in Hc.
    destruct (prefixLoop_spec (_logLevelsByNamespace self) (split "." ns)
                (length (split "." ns) - 1) rootLevel Hroot)
      as [(n & l & Hn & Hl & Hnone & Hloop)|[Hnone Hloop]].
    + exists l. split; [done|]. apply Hspec. rewrite Hc. left. by exists n.
    + exists rootLevel. split; [done|]. apply Hspec. rewrite Hc. by right.
Qed.

(** C4: on an instance whose table has a root entry, the predicate answers
    [no] exactly when the event has no level, or no namespace, or a level of
    priority strictly below that of the level its namespace resolves to;
    its answer is always [no] or [maybe], so [maybe] in every other case and
    never [yes]. *)
Theorem call_denies_or_abstains self (event : Event LogLevel) rootLevel :
  _logLevelsByNamespace self !! None = Some rootLevel ->
  (__call__ _priorityForLevel self event = Ok (PyResult no)
   <-> log_level event = None
       \/ log_namespace event = None
       \/ exists eventLevel namespaceLevel,
            log_level event = Some eventLevel
            /\ logLevelForNamespace self (log_namespace event)
               = Ok namespaceLevel
            /\ (_priorityForLevel eventLevel
                < _priorityForLevel namespaceLevel)%Z)
  /\ (__call__ _priorityForLevel self event = Ok (PyResult no)
      \/ __call__ _priorityForLevel self event = Ok (PyResult maybe)).
Proof.
  intros Hroot. unfold __call__.
  destruct (logLevelForNamespace_total self (log_namespace event) rootLevel Hroot)
    as [nl ->].
  destruct (log_level event) as [el|], (log_namespace event) as [ns|];
    try (split; [split; [intros _|]|]; by auto).
  destruct (Z.ltb_spec (_priorityForLevel el) (_priorityForLevel nl)).
  - split; [|by left]. split; [intros _|done].
    right; right. by exists el, nl.
  - split; [|by right]. split; [done|].
    intros [?|[?|(el' & nl' & Hel & Hnl & Hlt)]]; try done.
    inversion Hel; inversion Hnl; subst. lia.
Qed.

Lemma find_not_constant level :
  level ∉ (PyLevel <$> iterconstants) ->
  List.find (fun c => bool_decide (level = PyLevel c)) iterconstants = None.
Proof.
  induction iterconstants as [|c cs IH]; [done|].
  rewrite fmap_cons, not_elem_of_cons. intros [Hc Hcs]. simpl.
  rewrite bool_decide_eq_false_2 by done. by apply IH.
Qed.

Lemma find_constant l :
  l ∈ iterconstants ->
  List.find (fun c => bool_decide (PyLevel l = PyLevel c)) iterconstants
  = Some l.
Proof.
  induction iterconstants as [|c cs IH]; [by intros ?%elem_of_nil|].
  intros Hin. simpl. case_bool_decide as Hc.
  - by inversion Hc.
  - apply elem_of_cons in Hin as [->|Hin]; [done|]. by apply IH.
Qed.

(** C7: with a [level] that is not among [LogLevel.iterconstants()],
    [setLogLevelForNamespace] raises [InvalidLogLevelError(level)] and
    leaves the instance, its table and root entry included, as it was. *)
Theorem setLogLevelForNamespace_invalid self namespace level :
  level ∉ (PyLevel <$> iterconstants) ->
  setLogLevelForNamespace iterconstants namespace level self
  = (Raise (InvalidLogLevelError level), self).
Proof.
  intros Hlevel. unfold setLogLevelForNamespace.
  by rewrite find_not_constant.
Qed.

Lemma step_defaultLogLevel self o :
  defaultLogLevel (step iterconstants self o) = defaultLogLevel self.
Proof.
  destruct o as [namespace level|]; simpl; [|done].
  unfold setLogLevelForNamespace.
  destruct (List.find _ iterconstants); [|done].
  by destruct (namespace_truthy namespace).
Qed.

Lemma run_defaultLogLevel default ops :
  defaultLogLevel (run iterconstants default ops) = default.
Proof.
  unfold run. induction ops as [|o ops IH] using rev_ind; [done|].
  rewrite fold_left_app. cbn [fold_left]. by rewrite step_defaultLogLevel.
Qed.

(** C8: on the instance reached from construction with [default] by any
    calls of [setLogLevelForNamespace] (and of [clearLogLevels]), after
    [clearLogLevels] the level of every namespace is [default];
    [logLevelForNamespace] does not change the instance, so this holds for
    each later call. *)
Theorem clearLogLevels_resets default ops namespace :
  logLevelForNamespace
    (snd (clearLogLevels (run iterconstants default ops))) namespace
  = Ok default.
Proof.
  unfold clearLogLevels. cbn [snd]. rewrite run_defaultLogLevel.
  set (cleared := {| _logLevelsByNamespace := <[None := default]> ∅;
                     defaultLogLevel := default |}).
  assert (forall ns, _logLevelsByNamespace cleared !! Some ns = None) as Hnone.
  { intros ns. cbn. by rewrite lookup_insert_ne, lookup_empty. }
  assert (_logLevelsByNamespace cleared !! None = Some default) as Hroot.
  { cbn. by rewrite lookup_insert_eq. }
  by apply logLevelForNamespace_root_only.
Qed.

Lemma step_root self o :
  is_Some (_logLevelsByNamespace self !! None) ->
  is_Some (_logLevelsByNamespace (step iterconstants self o) !! None).
Proof.
  intros Hroot. destruct o as [namespace level|]; simpl.
  - unfold setLogLevelForNamespace.
    destruct (List.find _ iterconstants); [|done].
    destruct (namespace_truthy namespace) eqn:Hns; cbn.
    + destruct namespace as [ns|]; [|done]. by rewrite lookup_insert_ne.
    + rewrite lookup_insert_eq. by eexists.
  - rewrite lookup_insert_eq. by eexists.
Qed.

(** C9: right after construction the root entry is the default level, and
    after any calls of [setLogLevelForNamespace] (with a valid level or
    not) and [clearLogLevels] the table still has a root entry. *)
Theorem root_entry_always_present default ops :
  _logLevelsByNamespace (__init__ default) !! None = Some default
  /\ is_Some (_logLevelsByNamespace (run iterconstants default ops) !! None).
Proof.
  assert (_logLevelsByNamespace (__init__ default) !! None = Some default)
    as Hinit by (cbn; by rewrite lookup_insert_eq).
  split; [done|]. unfold run.
  induction ops as [|o ops IH] using rev_ind; [by eexists|].
  rewrite fold_left_app. by apply step_root.
Qed.

Lemma getitem_agree d d' key :
  d' !! key = d !! key -> getitem d' key = getitem d key.
Proof. unfold getitem. by intros ->. Qed.

Lemma contains_agree d d' key :
  d' !! key = d !! key -> contains d' key = contains d key.
Proof. unfold contains. by intros ->. Qed.

(** A lookup that never touches [key] does not see a change at [key]. *)
Lemma prefixLoop_frame d d' key segments index :
  (forall k, k <> key -> d' !! k = d !! k) ->
  key ∉ prefixLoopKeys d segments index ->
  prefixLoop d' segments index = prefixLoop d segments index.
Proof.
  intros Hagree. induction index as [|index IH]; simpl; intros Hkey.
  - apply getitem_agree, Hagree. set_solver.
  - destruct (contains d _) eqn:Hc.
    + assert (Some (join "." (take (S index) segments)) <> key) as Hne
        by set_solver.
      rewrite (contains_agree d d'), Hc by by apply Hagree.
      by apply getitem_agree, Hagree.
    + apply not_elem_of_cons in Hkey as [Hne Hkey].
      rewrite (contains_agree d d'), Hc by by apply Hagree.
      by apply IH.
Qed.

Lemma logLevelForNamespace_frame self self' key namespace :
  (forall k, k <> key ->
     _logLevelsByNamespace self' !! k = _logLevelsByNamespace self !! k) ->
  key ∉ consultedKeys self namespace ->
  logLevelForNamespace self' namespace = logLevelForNamespace self namespace.
Proof.
  intros Hagree. unfold consultedKeys, logLevelForNamespace.
  destruct (negb (namespace_truthy namespace)).
  { intros Hkey. apply getitem_agree, Hagree. set_solver. }
  destruct (contains (_logLevelsByNamespace self) namespace) eqn:Hc;
    intros Hkey.
  - assert (namespace <> key) as Hne by set_solver.
    rewrite (contains_agree _ _ namespace (Hagree _ Hne)), Hc.
    by apply getitem_agree, Hagree.
  - apply not_elem_of_cons in Hkey as [Hne Hkey].
    rewrite (contains_agree _ _ namespace (Hagree _ (not_eq_sym Hne))), Hc.
    by eapply prefixLoop_frame.
Qed.

(** C10: [setLogLevelForNamespace] with a constant [l] of the enumeration
    returns normally; the table then has [l] at the call's key (the
    namespace itself, or the root key for [None] and [""]) and its old
    entries at every other key; the stored default level is unchanged; and
    [logLevelForNamespace] answers as before for every namespace whose
    lookup on the old instance does not touch the call's key. *)
Theorem setLogLevelForNamespace_frame self namespace l :
  l ∈ iterconstants ->
  exists self',
    setLogLevelForNamespace iterconstants namespace (PyLevel l) self
    = (Ok tt, self')
    /\ _logLevelsByNamespace self' !! keyFor namespace = Some l
    /\ (forall key, key <> keyFor namespace ->
          _logLevelsByNamespace self' !! key
          = _logLevelsByNamespace self !! key)
    /\ defaultLogLevel self' = defaultLogLevel self
    /\ (forall namespace',
          keyFor namespace ∉ consultedKeys self namespace' ->
          logLevelForNamespace self' namespace'
          = logLevelForNamespace self namespace').
Proof.
  intros Hl. unfold setLogLevelForNamespace. rewrite (find_constant l Hl).
  assert (forall key,
            key <> keyFor namespace ->
            <[keyFor namespace := l]> (_logLevelsByNamespace self) !! key
            = _logLevelsByNamespace self !! key) as Hother.
  { intros key Hne. by rewrite lookup_insert_ne. }
  assert (<[keyFor namespace := l]> (_logLevelsByNamespace self)
            !! keyFor namespace = Some l) as Hown
    by by rewrite lookup_insert_eq.
  unfold keyFor in *.
  destruct (namespace_truthy namespace); eexists; cbn;
    (split; [reflexivity|]); (split; [exact Hown|]);
    (split; [exact Hother|]); (split; [reflexivity|]);
    intros namespace' Hkey; by eapply logLevelForNamespace_frame.
Qed.
End LevelFacts.

(** ** The properties on concrete runs *)

Section Runs.
Import Sample.
Import LogLevelFilterPredicate.

(** The spec's scenarios on [configured] and [strict]. *)
Example scenario_resolve :
  logLevelForNamespace configured (Some "app.db") = Ok debug
  /\ logLevelForNamespace configured (Some "other") = Ok info
  /\ logLevelForNamespace configured (Some "") = Ok info
  /\ logLevelForNamespace configured None = Ok info.
Proof. by repeat split. Qed.

Example scenario_drop :
  __call__ _priorityForLevel strict warnEvent = Ok (PyResult no)
  /\ FilteringLogObserver.__call__
       (FilteringLogObserver.new repr 1 2 countingObserver
          [levelPredicate _priorityForLevel strict]) 0 world0
     = (Ok PyNone, world0).
Proof. by split. Qed.

Example scenario_missing_namespace :
  __call__ _priorityForLevel configured
    {| log_level := Some error; log_namespace := None; log_trace := None |}
  = Ok (PyResult no).
Proof. reflexivity. Qed.

(** An accepted event without a trace list reaches the downstream observer
    once. *)
Example scenario_forward_untraced :
  FilteringLogObserver.__call__
    (FilteringLogObserver.new repr 1 2 countingObserver
       [always (PyResult yes)]) 0
    {| heap := fun _ => {| log_level := Some warn;
                           log_namespace := Some "app.db";
                           log_trace := None |};
       ext := 0 |}
  = (Ok PyNone,
     {| heap := fun _ => {| log_level := Some warn;
                            log_namespace := Some "app.db";
                            log_trace := None |};
        ext := 1 |}).
Proof. reflexivity. Qed.

(** A chain [maybe, no, yes] on any event: the answer is [False] and only
    the first two predicates are called. *)
Lemma shouldLogEvent_first_decisive_witness :
  (abstaining [always (PyResult maybe)] 0 tt = Some tt
   /\ always (St := unit) (PyResult no) 0 tt = (Ok (PyResult no), tt)
   /\ verdict no = Some false)
  /\ shouldLogEvent repr
       ([always (PyResult maybe)]
        ++ always (PyResult no) :: [always (PyResult yes)]) 0 tt
     = (Ok false, tt)
  /\ shouldLogEvent repr
       (instrument ([always (PyResult maybe)]
                    ++ always (PyResult no) :: [always (PyResult yes)]))
       0 (tt, [])
     = (Ok false, (tt, [0; 1])).
Proof.
  split; [by repeat split|].
  apply (shouldLogEvent_first_decisive repr
           [always (PyResult maybe)] [always (PyResult yes)]
           (always (PyResult no)) 0 tt tt tt no false); reflexivity.
Defined.

(** The empty chain lets everything through. *)
Lemma shouldLogEvent_default_permit_witness :
  abstaining (LogLevel := LogLevel) [] 0 tt = Some tt
  /\ shouldLogEvent repr [] 0 tt = (Ok true, tt).
Proof.
  split; [reflexivity|].
  apply (shouldLogEvent_default_permit repr [] 0 tt tt). reflexivity.
Defined.

(** The spec's scenario: ["app.db"] resolves to the level of ["app"]. *)
Lemma logLevelForNamespace_resolves_witness :
  _logLevelsByNamespace configured !! None = Some info
  /\ exists l, logLevelForNamespace configured (Some "app.db") = Ok l
               /\ resolveSpec (_logLevelsByNamespace configured) info
                    (Some "app.db") l.
Proof.
  split; [reflexivity|].
  apply (logLevelForNamespace_resolves configured (Some "app.db") info).
  reflexivity.
Defined.

(** [warnEvent] is below the threshold [error] of ["app"]. *)
Lemma call_denies_or_abstains_witness :
  _logLevelsByNamespace strict !! None = Some info
  /\ (__call__ _priorityForLevel strict warnEvent = Ok (PyResult no)
      <-> log_level warnEvent = None
          \/ log_namespace warnEvent = None
          \/ exists eventLevel namespaceLevel,
               log_level warnEvent = Some eventLevel
               /\ logLevelForNamespace strict (log_namespace warnEvent)
                  = Ok namespaceLevel
               /\ (_priorityForLevel eventLevel
                   < _priorityForLevel namespaceLevel)%Z)
  /\ (__call__ _priorityForLevel strict warnEvent = Ok (PyResult no)
      \/ __call__ _priorityForLevel strict warnEvent = Ok (PyResult maybe)).
Proof.
  split; [reflexivity|].
  apply (call_denies_or_abstains _priorityForLevel strict warnEvent info).
  reflexivity.
Defined.

(** The spec's last scenario: the chain accepts [warnEvent], which carries
    a trace list, and the call raises. *)
Lemma traced_event_raises_AttributeError_witness :
  (shouldLogEvent repr acceptingChain 0 world0 = (Ok true, world0)
   /\ is_Some (log_trace (heap world0 0)))
  /\ FilteringLogObserver.__call__
       (FilteringLogObserver.new repr 1 2 countingObserver acceptingChain)
       0 world0
     = (Raise (AttributeError "observer"), world0).
Proof.
  split; [split; [reflexivity|by eexists]|].
  apply (traced_event_raises_AttributeError repr 1 2 countingObserver
           acceptingChain 0 world0 world0); [reflexivity|by eexists].
Defined.

(** A predicate that answers the string ["yes"] instead of the constant. *)
Lemma invalid_predicate_result_raises_witness :
  (abstaining [always (PyResult maybe)] 0 world0 = Some world0
   /\ always (PyStr "yes") 0 world0 = (Ok (PyStr "yes"), world0)
   /\ forall r, PyStr "yes" <> PyResult (LogLevel := LogLevel) r)
  /\ shouldLogEvent repr
       ([always (PyResult maybe)]
        ++ always (PyStr "yes") :: [always (PyResult no)]) 0 world0
     = (Raise (TypeError "Invalid predicate result: 'yes'"), world0)
  /\ FilteringLogObserver.__call__
       (FilteringLogObserver.new repr 1 2 countingObserver
          ([always (PyResult maybe)]
           ++ always (PyStr "yes") :: [always (PyResult no)]))
       0 world0
     = (Raise (TypeError "Invalid predicate result: 'yes'"), world0).
Proof.
  split; [by repeat split|].
  apply (invalid_predicate_result_raises repr
           [always (PyResult maybe)] (always (PyStr "yes"))
           [always (PyResult no)] 0 world0 world0 world0 (PyStr "yes")
           1 2 countingObserver); [reflexivity|reflexivity|done].
Defined.

(** The string ["debug"] is not the constant [debug]. *)
Lemma setLogLevelForNamespace_invalid_witness :
  (PyStr "debug" ∉ (PyLevel <$> iterconstants))
  /\ setLogLevelForNamespace iterconstants (Some "app") (PyStr "debug")
       configured
     = (Raise (InvalidLogLevelError (PyStr "debug")), configured).
Proof.
  assert (PyStr "debug" ∉ (PyLevel <$> iterconstants)) as Hnot.
  { apply (bool_decide_unpack _). reflexivity. }
  split; [exact Hnot|].
  apply (setLogLevelForNamespace_invalid iterconstants configured
           (Some "app") (PyStr "debug") Hnot).
Defined.

(** Raising the threshold of ["app.db"] on [configured]. *)
Lemma setLogLevelForNamespace_frame_witness :
  (error ∈ iterconstants)
  /\ exists self',
       setLogLevelForNamespace iterconstants (Some "app.db") (PyLevel error)
         configured
       = (Ok tt, self')
       /\ _logLevelsByNamespace self' !! keyFor (Some "app.db") = Some error
       /\ (forall key, key <> keyFor (Some "app.db") ->
             _logLevelsByNamespace self' !! key
             = _logLevelsByNamespace configured !! key)
       /\ defaultLogLevel self' = defaultLogLevel configured
       /\ (forall namespace',
             keyFor (Some "app.db") ∉ consultedKeys configured namespace' ->
             logLevelForNamespace self' namespace'
             = logLevelForNamespace configured namespace').
Proof.
  assert (error ∈ iterconstants) as Hin.
  { apply (bool_decide_unpack _). reflexivity. }
  split; [exact Hin|].
  apply (setLogLevelForNamespace_frame iterconstants configured
           (Some "app.db") error Hin).
Defined.
End Runs.

(** * Further properties of the code *)

(** ** More on [split] and [join] *)

Lemma string_app_assoc (a b c : string) : (a +:+ b) +:+ c = a +:+ (b +:+ c).
Proof.
  induction a as [|x a IH]; [done|].
  change (String x ((a +:+ b) +:+ c) = String x (a +:+ (b +:+ c))).
  by f_equal.
Qed.

Lemma split_app_sep sep a b :
  split sep (a +:+ String sep b) = split sep a ++ split sep b.
Proof.
  induction a as [|c a IH]; simpl.
  - by rewrite Ascii.eqb_refl.
  - rewrite IH. destruct (Ascii.eqb c sep); [done|].
    pose proof (split_nonempty sep a).
    by destruct (split sep a).
Qed.

Lemma join_app sep (ps qs : list string) :
  ps <> [] -> qs <> [] ->
  join sep (ps ++ qs) = join sep ps +:+ sep +:+ join sep qs.
Proof.
  intros Hps Hqs. induction ps as [|p ps IH]; [done|].
  destruct ps as [|p' ps].
  - destruct qs; [done|]. reflexivity.
  - change (join sep ((p :: p' :: ps) ++ qs))
      with (p +:+ sep +:+ join sep ((p' :: ps) ++ qs)).
    rewrite IH by done.
    change (join sep (p :: p' :: ps)) with (p +:+ sep +:+ join sep (p' :: ps)).
    by rewrite !string_app_assoc.
Qed.

(** Every proper prefix of the segments of [s] is a dot-ancestor of [s]. *)
Lemma prefix_is_ancestor sep s n :
  1 <= n <= length (split sep s) - 1 ->
  s = join (String sep "") (take n (split sep s))
      +:+ String sep (join (String sep "") (drop n (split sep s))).
Proof.
  intros Hn.
  change (String sep (join (String sep "") (drop n (split sep s))))
    with (String sep "" +:+ join (String sep "") (drop n (split sep s))).
  rewrite <- join_app.
  - by rewrite take_drop, join_split.
  - intros Hnil%(f_equal length). rewrite length_take in Hnil. simpl in Hnil. lia.
  - intros Hnil%(f_equal length). rewrite length_drop in Hnil. simpl in Hnil. lia.
Qed.

(** The prefixes of [a.b] longer than [a] are descendants of [a]. *)
Lemma prefix_is_descendant sep a b n :
  length (split sep a) < n ->
  exists t,
    join (String sep "") (take n (split sep (a +:+ String sep b)))
    = a +:+ String sep t.
Proof.
  intros Hn. rewrite split_app_sep, take_app_ge by lia.
  exists (join (String sep "") (take (n - length (split sep a)) (split sep b))).
  rewrite join_app.
  - by rewrite join_split.
  - apply split_nonempty.
  - pose proof (split_nonempty sep b).
    destruct (split sep b); [done|].
    destruct (n - length (split sep a)) eqn:Hd; [lia|done].
Qed.

(** ** More on the namespace-to-level table *)

Section MoreLevelFacts.
Context {LogLevel : Type} `{EqDecision LogLevel}.
Variable iterconstants : list LogLevel.

Import LogLevelFilterPredicate.

Implicit Types (d : gmap (option string) LogLevel) (self : @t LogLevel).
Implicit Types (namespace key : option string) (level : PyObj LogLevel).

(** The loop stops at the longest configured prefix. *)
Lemma prefixLoop_found d segments index k l :
  1 <= k <= index ->
  d !! Some (join "." (take k segments)) = Some l ->
  (forall n, k < n <= index -> d !! Some (join "." (take n segments)) = None) ->
  prefixLoop d segments index = Ok l.
Proof.
  intros Hk Hl Hnone. induction index as [|index IH]; [lia|].
  simpl prefixLoop. destruct (decide (k = S index)) as [->|Hne].
  - rewrite (proj2 (contains_true d _)) by by eexists.
    by apply getitem_Some.
  - rewrite (proj2 (contains_false d _)) by (apply Hnone; lia).
    apply IH; [lia|]. intros n Hn. apply Hnone. lia.
Qed.

(** Without a configured prefix the loop ends at the root entry. *)
Lemma prefixLoop_none d segments index :
  (forall n, 1 <= n <= index -> d !! Some (join "." (take n segments)) = None) ->
  prefixLoop d segments index = getitem d None.
Proof.
  intros Hnone. induction index as [|index IH]; [done|].
  simpl prefixLoop.
  rewrite (proj2 (contains_false d _)) by (apply Hnone; lia).
  apply IH. intros n Hn. apply Hnone. lia.
Qed.

Lemma namespace_truthy_app a b :
  namespace_truthy (Some (a +:+ String "." b)) = true.
Proof. by destruct a. Qed.

(** X1: after [setLogLevelForNamespace(namespace, l)] with a constant [l] of
    the enumeration, [logLevelForNamespace(namespace)] is [l]: for a
    namespace string through its own entry, for [None] and [""] through the
    root entry. *)
Theorem set_then_lookup self namespace l :
  l ∈ iterconstants ->
  logLevelForNamespace
    (snd (setLogLevelForNamespace iterconstants namespace (PyLevel l) self))
    namespace
  = Ok l.
Proof.
  intros Hl. unfold setLogLevelForNamespace.
  rewrite (find_constant iterconstants l Hl).
  unfold logLevelForNamespace.
  destruct (namespace_truthy namespace) eqn:Hns; cbn.
  - rewrite (proj2 (contains_true _ _)) by (rewrite lookup_insert_eq; by eexists).
    apply getitem_Some, lookup_insert_eq.
  - apply getitem_Some, lookup_insert_eq.
Qed.

(** X2: a namespace [a.rest] with no entry of its own takes the level of its
    ancestor [a] when no descendant of [a] is configured (the docstring's
    ["mypackage"] and ["mypackage.subpackage"]). *)
Theorem logLevelForNamespace_nearest_ancestor self (a rest : string) l :
  _logLevelsByNamespace self !! Some a = Some l ->
  (forall t, _logLevelsByNamespace self !! Some (a +:+ String "." t) = None) ->
  logLevelForNamespace self (Some (a +:+ String "." rest)) = Ok l.
Proof.
  intros Ha Hdesc. unfold logLevelForNamespace.
  rewrite namespace_truthy_app. cbn [negb default from_option id].
  rewrite (proj2 (contains_false _ _) (Hdesc rest)).
  pose proof (split_nonempty "." a) as Hsa.
  pose proof (split_nonempty "." rest) as Hsr.
  apply (prefixLoop_found _ _ _ (length (split "." a))).
  - rewrite split_app_sep, length_app.
    destruct (split "." a); [done|]. destruct (split "." rest); [done|].
    simpl. lia.
  - by rewrite split_app_sep, take_app_length, join_split.
  - intros n [Hn _].
    destruct (prefix_is_descendant "." a rest n Hn) as [t ->]. apply Hdesc.
Qed.

(** X3: a namespace with no entry of its own and no configured ancestor
    resolves to the root level. *)
Theorem logLevelForNamespace_no_ancestor self (ns : string) rootLevel :
  _logLevelsByNamespace self !! None = Some rootLevel ->
  _logLevelsByNamespace self !! Some ns = None ->
  (forall a t, ns = a +:+ String "." t ->
               _logLevelsByNamespace self !! Some a = None) ->
  logLevelForNamespace self (Some ns) = Ok rootLevel.
Proof.
  intros Hroot Hns Hanc. unfold logLevelForNamespace.
  destruct (negb (namespace_truthy (Some ns))); [by apply getitem_Some|].
  rewrite (proj2 (contains_false _ _) Hns). cbn [default from_option id].
  rewrite prefixLoop_none; [by apply getitem_Some|].
  intros n Hn. eapply Hanc. by apply prefix_is_ancestor.
Qed.

(** X4: [clearLogLevels] is a full reset: after any calls, it leaves the
    instance exactly as construction with the same default leaves it. *)
Theorem clearLogLevels_is_fresh default ops :
  snd (clearLogLevels (run iterconstants default ops)) = __init__ default.
Proof.
  unfold clearLogLevels, __init__. cbn [snd].
  by rewrite run_defaultLogLevel.
Qed.

Lemma step_no_empty_key self o :
  _logLevelsByNamespace self !! Some "" = None ->
  _logLevelsByNamespace (step iterconstants self o) !! Some "" = None.
Proof.
  intros Hnone. destruct o as [namespace level|]; simpl.
  - unfold setLogLevelForNamespace.
    destruct (List.find _ iterconstants); [|done].
    destruct (namespace_truthy namespace) eqn:Hns; cbn.
    + destruct namespace as [ns|]; [|done].
      apply namespace_truthy_Some in Hns.
      rewrite lookup_insert_ne; [done|congruence].
    + by rewrite lookup_insert_ne.
  - by rewrite lookup_insert_ne, lookup_empty.
Qed.

(** X5: the empty string is never a key of the table: whatever calls are
    made, [""] is filed under the root key. *)
Theorem empty_namespace_never_a_key default ops :
  _logLevelsByNamespace (run iterconstants default ops) !! Some "" = None.
Proof.
  unfold run. induction ops as [|o ops IH] using rev_ind.
  - cbn. by rewrite lookup_insert_ne, lookup_empty.
  - rewrite fold_left_app. by apply step_no_empty_key.
Qed.

Lemma find_is_constant level c :
  List.find (fun c => bool_decide (level = PyLevel c)) iterconstants = Some c ->
  c ∈ iterconstants /\ level = PyLevel c.
Proof.
  intros [Hin Heq]%find_some. split; [by apply list_elem_of_In|].
  by apply bool_decide_eq_true in Heq.
Qed.

Lemma step_levels_valid (P : LogLevel -> Prop) self o :
  (forall c, c ∈ iterconstants -> P c) ->
  P (defaultLogLevel self) ->
  (forall key l, _logLevelsByNamespace self !! key = Some l -> P l) ->
  forall key l,
    _logLevelsByNamespace (step iterconstants self o) !! key = Some l -> P l.
Proof.
  intros Hconst Hdefault Hself key l. destruct o as [namespace level|]; simpl.
  - unfold setLogLevelForNamespace.
    destruct (List.find _ iterconstants) as [c|] eqn:Hfind; [|by apply Hself].
    apply find_is_constant in Hfind as [Hc _].
    destruct (namespace_truthy namespace); cbn;
      rewrite lookup_insert; case_decide;
      first [by intros [= <-]; apply Hconst | by apply Hself].
  - rewrite lookup_insert. case_decide; [by intros [= <-]|].
    by rewrite lookup_empty.
Qed.

(** X6: every level stored in the table is the construction-time default or
    a constant of the enumeration: a rejected level never gets in. *)
Theorem stored_levels_valid default ops key l :
  _logLevelsByNamespace (run iterconstants default ops) !! key = Some l ->
  l = default \/ l ∈ iterconstants.
Proof.
  revert key l. unfold run. induction ops as [|o ops IH] using rev_ind.
  - intros key l. cbn. rewrite lookup_insert. case_decide.
    + intros [= <-]. by left.
    + by rewrite lookup_empty.
  - intros key l. rewrite fold_left_app. cbn [fold_left].
    apply (step_levels_valid (fun l => l = default \/ l ∈ iterconstants)).
    + by right.
    + left. apply (run_defaultLogLevel iterconstants default ops).
    + exact IH.
Qed.

(** X7: the last valid level set for a namespace wins, whatever was set for
    it just before (valid or rejected). *)
Theorem setLogLevelForNamespace_overwrites self namespace level l :
  l ∈ iterconstants ->
  snd (setLogLevelForNamespace iterconstants namespace (PyLevel l)
         (snd (setLogLevelForNamespace iterconstants namespace level self)))
  = snd (setLogLevelForNamespace iterconstants namespace (PyLevel l) self).
Proof.
  intros Hl. unfold setLogLevelForNamespace.
  rewrite (find_constant iterconstants l Hl).
  destruct (List.find _ iterconstants); [|done].
  destruct (namespace_truthy namespace); cbn; by rewrite insert_insert_eq.
Qed.

(** X8: calls of [setLogLevelForNamespace] that write different keys can be
    made in either order. *)
Theorem setLogLevelForNamespace_commutes self namespace1 level1
    namespace2 level2 :
  keyFor namespace1 <> keyFor namespace2 ->
  snd (setLogLevelForNamespace iterconstants namespace1 level1
         (snd (setLogLevelForNamespace iterconstants namespace2 level2 self)))
  = snd (setLogLevelForNamespace iterconstants namespace2 level2
           (snd (setLogLevelForNamespace iterconstants namespace1 level1 self))).
Proof.
  unfold keyFor, setLogLevelForNamespace. intros Hne.
  destruct (List.find (fun c => bool_decide (level1 = _)) iterconstants),
    (List.find (fun c => bool_decide (level2 = _)) iterconstants);
    destruct (namespace_truthy namespace1), (namespace_truthy namespace2);
    cbn; try done; by rewrite insert_insert_ne.
Qed.
End MoreLevelFacts.

(** ** More on the predicate chain *)

Section MoreChainFacts.
Context {LogLevel : Type} `{EqDecision LogLevel}.
Context {E : Type}.
Variable repr : PyObj LogLevel -> string.

(** X9: [shouldLogEvent] returns [False] only on a veto: some predicate
    answered [no] after all the predicates before it answered [maybe], and
    the state is the one that predicate left. *)
Theorem shouldLogEvent_False_is_a_veto {St}
    (predicates : list (@Predicate LogLevel E St)) (event : E) st st' :
  shouldLogEvent repr predicates event st = (Ok false, st') ->
  exists before p after st1,
    predicates = before ++ p :: after
    /\ abstaining before event st = Some st1
    /\ p event st1 = (Ok (PyResult no), st').
Proof.
  revert st. induction predicates as [|q predicates IH]; intros st; simpl.
  - by intros [=].
  - unfold bind. destruct (q event st) as [[v|e] st0] eqn:Hq; [|by intros [=]].
    destruct v as [| | | | |[]]; simpl; try by intros [=].
    + intros [= <-]. by exists [], q, predicates, st.
    + intros (before & p & after & st1 & -> & Hab & Hp)%IH.
      exists (q :: before), p, after, st1. simpl. by rewrite Hq.
Qed.

(** An exception raised by a predicate that is reached leaves the chain. *)
Lemma shouldLogEvent_predicate_raises {St}
    (before after : list (@Predicate LogLevel E St)) p event st st1 st2 e :
  abstaining before event st = Some st1 ->
  p event st1 = (Raise e, st2) ->
  shouldLogEvent repr (before ++ p :: after) event st = (Raise e, st2).
Proof.
  intros Hab Hp. rewrite (shouldLogEvent_skip _ _ _ _ _ _ Hab).
  simpl. unfold bind. by rewrite Hp.
Qed.
End MoreChainFacts.

(** ** More on the forwarding observer *)

Section MoreObserverFacts.
Context {LogLevel : Type} `{EqDecision LogLevel}.
Context {R : Type}.
Variable repr : PyObj LogLevel -> string.
Variable _priorityForLevel : LogLevel -> Z.

#[local] Abbreviation W' := (World LogLevel R).
Implicit Types (w : W') (event : loc).
Implicit Types predicates : list (@Predicate LogLevel loc W').
Implicit Types observer : @FilteringLogObserver.PyCallable LogLevel R.

(** X10: an exception raised by a predicate, reached after abstaining ones,
    comes out of [shouldLogEvent] and out of the observer's call unchanged;
    the state is the one the raising predicate left, so neither a later
    predicate nor the downstream observer has run. *)
Theorem predicate_exception_propagates before (p : @Predicate LogLevel loc W')
    after event w w1 w2 e id id' observer :
  abstaining before event w = Some w1 ->
  p event w1 = (Raise e, w2) ->
  shouldLogEvent repr (before ++ p :: after) event w = (Raise e, w2)
  /\ FilteringLogObserver.__call__
       (FilteringLogObserver.new repr id id' observer (before ++ p :: after))
       event w
     = (Raise e, w2).
Proof.
  intros Hab Hp.
  assert (shouldLogEvent repr (before ++ p :: after) event w = (Raise e, w2))
    as Hraise by by eapply shouldLogEvent_predicate_raises.
  split; [done|]. by rewrite call_new, Hraise.
Qed.

(** X11: an event the chain rejects is dropped silently: the call returns
    [None], with the state as the chain left it, whether or not the event
    carries [log_trace]. *)
Theorem rejected_event_is_dropped id id' observer predicates event w w' :
  shouldLogEvent repr predicates event w = (Ok false, w') ->
  FilteringLogObserver.__call__
    (FilteringLogObserver.new repr id id' observer predicates) event w
  = (Ok PyNone, w').
Proof. intros Hfalse. by rewrite call_new, Hfalse. Qed.

(** X12: an event the chain accepts and that has no [log_trace] key is handed
    to the downstream observer once, on the state the chain left; the call
    returns [None] whatever the observer returned, and an exception of the
    observer comes out unchanged. *)
Theorem untraced_event_is_forwarded id id' observer predicates event
    w w' w'' r :
  shouldLogEvent repr predicates event w = (Ok true, w') ->
  log_trace (heap w' event) = None ->
  FilteringLogObserver.call observer event w' = (r, w'') ->
  FilteringLogObserver.__call__
    (FilteringLogObserver.new repr id id' observer predicates) event w
  = (match r with Ok _ => Ok PyNone | Raise e => Raise e end, w'').
Proof.
  intros Htrue Htrace Hcall. rewrite call_new, Htrue, Htrace, Hcall.
  rewrite bool_decide_eq_false_2 by by intros [? [=]].
  by destruct r.
Qed.

(** X13: an observer filtering with a single [LogLevelFilterPredicate] (whose
    table has a root entry), on an event without [log_trace]: the event is
    dropped when the predicate answers [no] and is handed to the downstream
    observer otherwise, the predicate's [maybe] falling through to the
    chain's default. *)
Theorem level_filter_alone id id' observer (self : LogLevelFilterPredicate.t)
    rootLevel event w w'' r :
  LogLevelFilterPredicate._logLevelsByNamespace self !! None = Some rootLevel ->
  log_trace (heap w event) = None ->
  FilteringLogObserver.call observer event w = (r, w'') ->
  FilteringLogObserver.__call__
    (FilteringLogObserver.new repr id id' observer
       [levelPredicate _priorityForLevel self]) event w
  = match LogLevelFilterPredicate.__call__ _priorityForLevel self
            (heap w event) with
    | Ok (PyResult no) => (Ok PyNone, w)
    | _ => (match r with Ok _ => Ok PyNone | Raise e => Raise e end, w'')
    end.
Proof.
  intros Hroot Htrace Hcall.
  assert (LogLevelFilterPredicate.__call__ _priorityForLevel self (heap w event)
          = Ok (PyResult no)
          \/ LogLevelFilterPredicate.__call__ _priorityForLevel self
               (heap w event)
             = Ok (PyResult maybe)) as [Hno|Hmaybe].
  { unfold LogLevelFilterPredicate.__call__.
    destruct (logLevelForNamespace_total self (log_namespace (heap w event))
                rootLevel Hroot) as [nl ->].
    destruct (log_level (heap w event)), (log_namespace (heap w event));
      try destruct (_ <? _)%Z; auto. }
  - assert (shouldLogEvent repr [levelPredicate _priorityForLevel self] event w
            = (Ok false, w)) as Hchain.
    { apply (shouldLogEvent_decisive repr _ [] event w w no false);
        [|reflexivity].
      unfold levelPredicate. by rewrite Hno. }
    by rewrite call_new, Hchain, Hno.
  - assert (shouldLogEvent repr [levelPredicate _priorityForLevel self] event w
            = (Ok true, w)) as Hchain.
    { apply (shouldLogEvent_skip repr [levelPredicate _priorityForLevel self]
               [] event w w).
      simpl. unfold levelPredicate. by rewrite Hmaybe. }
    rewrite call_new, Hchain, Hmaybe, Htrace, Hcall.
    rewrite bool_decide_eq_false_2 by by intros [? [=]].
    by destruct r.
Qed.
End MoreObserverFacts.

(** ** Frames and monotonicity *)

Section FrameFacts.
Context {LogLevel : Type} `{EqDecision LogLevel}.
Variable iterconstants : list LogLevel.
Variable _priorityForLevel : LogLevel -> Z.

Import LogLevelFilterPredicate.

Implicit Types (d : gmap (option string) LogLevel) (self : @t LogLevel).

(** The loop looks up prefixes of the segments and the root key only. *)
Lemma prefixLoopKeys_are_prefixes d segments index key :
  key ∈ prefixLoopKeys d segments index ->
  key = None
  \/ exists n, 1 <= n <= index /\ key = Some (join "." (take n segments)).
Proof.
  induction index as [|index IH]; simpl.
  - intros ->%list_elem_of_singleton. by left.
  - destruct (contains d _).
    + intros ->%list_elem_of_singleton. right. exists (S index). split; [lia|done].
    + intros [->|Hin]%elem_of_cons.
      * right. exists (S index). split; [lia|done].
      * destruct (IH Hin) as [->|(n & Hn & ->)]; [by left|].
        right. exists n. split; [lia|done].
Qed.

(** X14: setting the level of a namespace [a] changes the resolution of [a]
    and of its descendants [a.t] only: every other namespace resolves as
    before, whether the call succeeds or is rejected. *)
Theorem set_affects_only_descendants self (a : string) level namespace' :
  a <> "" ->
  namespace' <> Some a ->
  (forall t, namespace' <> Some (a +:+ String "." t)) ->
  logLevelForNamespace
    (snd (setLogLevelForNamespace iterconstants (Some a) level self))
    namespace'
  = logLevelForNamespace self namespace'.
Proof.
  intros Ha Hself Hdesc. unfold setLogLevelForNamespace.
  destruct (List.find _ iterconstants) as [l|]; [|done].
  rewrite (proj2 (namespace_truthy_Some a) Ha). cbn [snd].
  apply (logLevelForNamespace_frame _ _ (Some a)).
  { intros k Hk. cbn. by rewrite lookup_insert_ne. }
  unfold consultedKeys.
  destruct namespace' as [ns|]; [|by intros [=]%list_elem_of_singleton].
  destruct (negb (namespace_truthy (Some ns)));
    [by intros [=]%list_elem_of_singleton|].
  destruct (contains _ (Some ns)).
  { intros Hin%list_elem_of_singleton. by apply Hself. }
  intros [Heq|Hin]%elem_of_cons; [by apply Hself|].
  apply prefixLoopKeys_are_prefixes in Hin as [[=]|(n & Hn & [= ->])].
  apply (Hdesc (join "." (drop n (split "." ns)))). f_equal.
  by apply prefix_is_ancestor.
Qed.

(** X15: the predicate is monotone in the event's level: if it denies an
    event, it denies every event of the same namespace whose level has no
    higher priority. *)
Theorem call_denial_is_monotone self (event event' : Event LogLevel) l l' :
  log_namespace event = log_namespace event' ->
  log_level event = Some l ->
  log_level event' = Some l' ->
  (_priorityForLevel l <= _priorityForLevel l')%Z ->
  __call__ _priorityForLevel self event' = Ok (PyResult no) ->
  __call__ _priorityForLevel self event = Ok (PyResult no).
Proof.
  unfold __call__. intros <- -> -> Hle.
  destruct (logLevelForNamespace self (log_namespace event)) as [nl|e];
    [|done].
  destruct (log_namespace event); [|done].
  destruct (Z.ltb_spec (_priorityForLevel l') (_priorityForLevel nl));
    [|by intros [=]].
  intros _. by rewrite (proj2 (Z.ltb_lt _ _)) by lia.
Qed.
End FrameFacts.

Section PurityFacts.
Context {LogLevel : Type} `{EqDecision LogLevel}.
Context {E : Type}.
Variable repr : PyObj LogLevel -> string.

End PurityFacts.

(** ** The further properties on concrete runs *)

Section MoreRuns.
Import Sample SampleUntraced.
Import LogLevelFilterPredicate.

Lemma configured_table :
  _logLevelsByNamespace configured
  = <[Some "app" := debug]> (<[None := info]> ∅).
Proof. reflexivity. Qed.

Lemma configured_no_descendant t :
  _logLevelsByNamespace configured !! Some ("app" +:+ String "." t) = None.
Proof.
  rewrite configured_table.
  by rewrite !lookup_insert_ne, lookup_empty by done.
Qed.

Lemma other_has_no_ancestor a t :
  "other" = a +:+ String "." t ->
  _logLevelsByNamespace configured !! Some a = None.
Proof.
  intros Heq. exfalso.
  repeat (destruct a as [|? a]; simpl in Heq;
          [discriminate Heq|]; injection Heq as _ Heq).
  destruct a; discriminate Heq.
Qed.

Lemma set_then_lookup_witness :
  (error ∈ iterconstants)
  /\ logLevelForNamespace
       (snd (setLogLevelForNamespace iterconstants (Some "app.db")
               (PyLevel error) configured))
       (Some "app.db")
     = Ok error.
Proof.
  assert (error ∈ iterconstants) as Hin.
  { apply (bool_decide_unpack _). reflexivity. }
  split; [exact Hin|].
  apply (set_then_lookup iterconstants configured (Some "app.db") error Hin).
Defined.

Lemma logLevelForNamespace_nearest_ancestor_witness :
  (_logLevelsByNamespace configured !! Some "app" = Some debug
   /\ forall t, _logLevelsByNamespace configured
                  !! Some ("app" +:+ String "." t) = None)
  /\ logLevelForNamespace configured (Some ("app" +:+ String "." "db.pool"))
     = Ok debug.
Proof.
  split; [split; [reflexivity|exact configured_no_descendant]|].
  apply (logLevelForNamespace_nearest_ancestor configured "app" "db.pool" debug);
    [reflexivity|exact configured_no_descendant].
Defined.

Lemma logLevelForNamespace_no_ancestor_witness :
  (_logLevelsByNamespace configured !! None = Some info
   /\ _logLevelsByNamespace configured !! Some "other" = None
   /\ forall a t, "other" = a +:+ String "." t ->
                  _logLevelsByNamespace configured !! Some a = None)
  /\ logLevelForNamespace configured (Some "other") = Ok info.
Proof.
  split; [split; [reflexivity|split; [reflexivity|exact other_has_no_ancestor]]|].
  apply (logLevelForNamespace_no_ancestor configured "other" info);
    [reflexivity|reflexivity|exact other_has_no_ancestor].
Defined.

Lemma stored_levels_valid_witness :
  _logLevelsByNamespace
    (run iterconstants info [SetLevel (Some "app") (PyLevel debug)])
    !! Some "app" = Some debug
  /\ (debug = info \/ debug ∈ iterconstants).
Proof.
  split; [reflexivity|].
  apply (stored_levels_valid iterconstants info
           [SetLevel (Some "app") (PyLevel debug)] (Some "app") debug).
  reflexivity.
Defined.

Lemma setLogLevelForNamespace_overwrites_witness :
  (error ∈ iterconstants)
  /\ snd (setLogLevelForNamespace iterconstants (Some "app") (PyLevel error)
            (snd (setLogLevelForNamespace iterconstants (Some "app")
                    (PyStr "bogus") configured)))
     = snd (setLogLevelForNamespace iterconstants (Some "app") (PyLevel error)
              configured).
Proof.
  assert (error ∈ iterconstants) as Hin.
  { apply (bool_decide_unpack _). reflexivity. }
  split; [exact Hin|].
  apply (setLogLevelForNamespace_overwrites iterconstants configured
           (Some "app") (PyStr "bogus") error Hin).
Defined.

Lemma setLogLevelForNamespace_commutes_witness :
  keyFor (Some "web") <> keyFor None
  /\ snd (setLogLevelForNamespace iterconstants (Some "web") (PyLevel warn)
            (snd (setLogLevelForNamespace iterconstants None (PyLevel error)
                    configured)))
     = snd (setLogLevelForNamespace iterconstants None (PyLevel error)
              (snd (setLogLevelForNamespace iterconstants (Some "web")
                      (PyLevel warn) configured))).
Proof.
  assert (keyFor (Some "web") <> keyFor None) as Hne by done.
  split; [exact Hne|].
  apply (setLogLevelForNamespace_commutes iterconstants configured
           (Some "web") (PyLevel warn) None (PyLevel error) Hne).
Defined.

Lemma shouldLogEvent_False_is_a_veto_witness :
  shouldLogEvent repr
    [always (PyResult maybe); always (PyResult no); always (PyResult yes)]
    0 tt
  = (Ok false, tt)
  /\ exists before p after st1,
       [always (E := nat) (St := unit) (PyResult maybe);
        always (PyResult no); always (PyResult yes)]
       = before ++ p :: after
       /\ abstaining before 0 tt = Some st1
       /\ p 0 st1 = (Ok (PyResult no), tt).
Proof.
  split; [reflexivity|].
  apply (shouldLogEvent_False_is_a_veto repr
           [always (PyResult maybe); always (PyResult no);
            always (PyResult yes)] 0 tt tt).
  reflexivity.
Defined.

Lemma predicate_exception_propagates_witness :
  (abstaining [always (PyResult maybe)] 0 world0 = Some world0
   /\ failing 0 world0 = (Raise (KeyError (Some "user")), world0))
  /\ shouldLogEvent repr
       ([always (PyResult maybe)] ++ failing :: [always (PyResult yes)])
       0 world0
     = (Raise (KeyError (Some "user")), world0)
  /\ FilteringLogObserver.__call__
       (FilteringLogObserver.new repr 1 2 countingObserver
          ([always (PyResult maybe)] ++ failing :: [always (PyResult yes)]))
       0 world0
     = (Raise (KeyError (Some "user")), world0).
Proof.
  split; [by split|].
  apply (predicate_exception_propagates repr
           [always (PyResult maybe)] failing [always (PyResult yes)]
           0 world0 world0 world0 (KeyError (Some "user"))
           1 2 countingObserver); reflexivity.
Defined.

Lemma rejected_event_is_dropped_witness :
  shouldLogEvent repr [levelPredicate _priorityForLevel strict] 0 world0
  = (Ok false, world0)
  /\ FilteringLogObserver.__call__
       (FilteringLogObserver.new repr 1 2 countingObserver
          [levelPredicate _priorityForLevel strict]) 0 world0
     = (Ok PyNone, world0).
Proof.
  split; [reflexivity|].
  apply (rejected_event_is_dropped repr 1 2 countingObserver
           [levelPredicate _priorityForLevel strict] 0 world0 world0).
  reflexivity.
Defined.

Lemma untraced_event_is_forwarded_witness :
  (shouldLogEvent repr [always (PyResult yes)] 0 world1 = (Ok true, world1)
   /\ log_trace (heap world1 0) = None
   /\ FilteringLogObserver.call countingObserver 0 world1
      = (Ok PyNone, world1_received))
  /\ FilteringLogObserver.__call__
       (FilteringLogObserver.new repr 1 2 countingObserver
          [always (PyResult yes)]) 0 world1
     = (Ok PyNone, world1_received).
Proof.
  split; [by repeat split|].
  apply (untraced_event_is_forwarded repr 1 2 countingObserver
           [always (PyResult yes)] 0 world1 world1 world1_received
           (Ok PyNone)); reflexivity.
Defined.

Lemma level_filter_alone_witness :
  (_logLevelsByNamespace configured !! None = Some info
   /\ log_trace (heap world1 0) = None
   /\ FilteringLogObserver.call countingObserver 0 world1
      = (Ok PyNone, world1_received))
  /\ FilteringLogObserver.__call__
       (FilteringLogObserver.new repr 1 2 countingObserver
          [levelPredicate _priorityForLevel configured]) 0 world1
     = (Ok PyNone, world1_received).
Proof.
  split; [by repeat split|].
  apply (level_filter_alone repr _priorityForLevel 1 2 countingObserver
           configured info 0 world1 world1_received (Ok PyNone));
    reflexivity.
Defined.

Lemma set_affects_only_descendants_witness :
  ("app.db" <> ""
   /\ Some "app.web" <> Some "app.db"
   /\ forall t, Some "app.web" <> Some ("app.db" +:+ String "." t))
  /\ logLevelForNamespace
       (snd (setLogLevelForNamespace iterconstants (Some "app.db")
               (PyLevel error) configured))
       (Some "app.web")
     = logLevelForNamespace configured (Some "app.web").
Proof.
  assert (forall t, Some "app.web" <> Some ("app.db" +:+ String "." t))
    as Hdesc by (by intros t [=]).
  split; [by repeat split|].
  apply (set_affects_only_descendants iterconstants configured "app.db"
           (PyLevel error) (Some "app.web")); [done|done|exact Hdesc].
Defined.

Lemma call_denial_is_monotone_witness :
  (log_namespace
     {| log_level := Some debug; log_namespace := Some "app.db";
        log_trace := None |}
   = log_namespace warnEvent
   /\ (_priorityForLevel debug <= _priorityForLevel warn)%Z
   /\ __call__ _priorityForLevel strict warnEvent = Ok (PyResult no))
  /\ __call__ _priorityForLevel strict
       {| log_level := Some debug; log_namespace := Some "app.db";
          log_trace := None |}
     = Ok (PyResult no).
Proof.
  split; [by repeat split|].
  apply (call_denial_is_monotone _priorityForLevel strict
           {| log_level := Some debug; log_namespace := Some "app.db";
              log_trace := None |} warnEvent debug warn);
    [reflexivity|reflexivity|reflexivity|done|reflexivity].
Defined.

End MoreRuns.
